(** * The NVDLA loadable interface (umd/core/include/nvdla/ILoadable.h)

    A shallow embedding of the record types of [nvdla::ILoadable], of their
    constructors and conversions to and from the C wire shapes, of the
    abstract interface, and of the table-backed query layer behind it.

    Integers of the fixed-width types NvU8, NvU16, NvU32, NvU64 and NvS16 are
    carried as [Z]; an assignment between two fields of one type copies the
    value as it is. *)

From Stdlib Require Import ZArith Lia.
From stdpp Require Import base option list gmap strings sorting.

Local Open Scope Z_scope.

(* ===================================================================== *)
(** ** Fixed-width integers (nvdla/c/NvDlaType.h) *)
(* ===================================================================== *)

Definition NvU8_range (v : Z) : Prop := 0 <= v < 2 ^ 8.
Definition NvU16_range (v : Z) : Prop := 0 <= v < 2 ^ 16.
Definition NvU32_range (v : Z) : Prop := 0 <= v < 2 ^ 32.
Definition NvU64_range (v : Z) : Prop := 0 <= v < 2 ^ 64.

(** The conversion of an integer to NvU16, as in the comparison
    [bind_id != -1] of the comment on [tensor_desc_id]. *)
Definition to_NvU16 (v : Z) : Z := v mod 2 ^ 16.

(* ===================================================================== *)
(** ** The enumerators of nvdla/c/NvDlaLoadable.h *)
(* ===================================================================== *)

(** The macros NVDLA_LOADABLE_* are defined in nvdla/c/NvDlaLoadable.h, which
    is not among the sources; the enums of [ILoadable] only rename them.  Their
    values are a parameter of the development. *)
Class NvDlaLoadableH : Type := {
  NVDLA_LOADABLE_INTERFACE_NONE : Z;
  NVDLA_LOADABLE_INTERFACE_DLA1 : Z;
  NVDLA_LOADABLE_MEMORY_DOMAIN_SYSMEM : Z;
  NVDLA_LOADABLE_MEMORY_DOMAIN_SRAM : Z;
  NVDLA_LOADABLE_MEMORY_FLAGS_NONE : Z;
  NVDLA_LOADABLE_MEMORY_FLAGS_ALLOC : Z;
  NVDLA_LOADABLE_MEMORY_FLAGS_SET : Z;
  NVDLA_LOADABLE_MEMORY_FLAGS_INPUT : Z;
  NVDLA_LOADABLE_MEMORY_FLAGS_OUTPUT : Z;
  NVDLA_LOADABLE_EVENT_OP_WAIT : Z;
  NVDLA_LOADABLE_EVENT_OP_SIGNAL : Z
}.

(** One choice of the enumerators (distinct single-bit memory flags), used to
    run the definitions on concrete loadables. *)
Definition sample_header : NvDlaLoadableH := {|
  NVDLA_LOADABLE_INTERFACE_NONE := 0;
  NVDLA_LOADABLE_INTERFACE_DLA1 := 1;
  NVDLA_LOADABLE_MEMORY_DOMAIN_SYSMEM := 0;
  NVDLA_LOADABLE_MEMORY_DOMAIN_SRAM := 1;
  NVDLA_LOADABLE_MEMORY_FLAGS_NONE := 0;
  NVDLA_LOADABLE_MEMORY_FLAGS_ALLOC := 1;
  NVDLA_LOADABLE_MEMORY_FLAGS_SET := 2;
  NVDLA_LOADABLE_MEMORY_FLAGS_INPUT := 4;
  NVDLA_LOADABLE_MEMORY_FLAGS_OUTPUT := 8;
  NVDLA_LOADABLE_EVENT_OP_WAIT := 0;
  NVDLA_LOADABLE_EVENT_OP_SIGNAL := 1
|}.

(* ===================================================================== *)
(** ** The C wire shapes (nvdla/c/NvDlaLoadable.h) *)
(* ===================================================================== *)

(** The C structs are declared in nvdla/c/NvDlaLoadable.h, which is not among
    the sources.  Section 6 of the spec makes the record shapes of its
    section 3 the wire contract; each struct is modelled with the fields that
    [toC] and [fromC] name, every field of the type of the C++ field it is
    copied from or to.  A C++ assignment [c.f = v] is the setter
    [set_f v c]. *)

Module NvDlaLoadableVersion.
(** Modelled from the spec: the struct NvDlaLoadableVersion, whose declaration
  is missing; "a 3-component version (major, minor, sub-minor)". *)
Record t : Type := mk { major : Z; minor : Z; subMinor : Z }.
Definition set_major (v : Z) (c : t) : t := mk v (minor c) (subMinor c).
Definition set_minor (v : Z) (c : t) : t := mk (major c) v (subMinor c).
Definition set_subMinor (v : Z) (c : t) : t := mk (major c) (minor c) v.
End NvDlaLoadableVersion.

Module NvDlaLoadableEventListEntry.
(** Modelled from the spec: the struct NvDlaLoadableEventListEntry, whose
  declaration is missing; "id, target, operation and an opaque value". *)
Record t : Type := mk { id : Z; target : Z; op : Z; val : Z }.
Definition set_id (v : Z) (c : t) : t := mk v (target c) (op c) (val c).
Definition set_target (v : Z) (c : t) : t := mk (id c) v (op c) (val c).
Definition set_op (v : Z) (c : t) : t := mk (id c) (target c) v (val c).
Definition set_val (v : Z) (c : t) : t := mk (id c) (target c) (op c) v.
End NvDlaLoadableEventListEntry.

Module NvDlaLoadableAddressListEntry.
(** Modelled from the spec: the struct NvDlaLoadableAddressListEntry, whose
  declaration is missing; "id, mem_id, size and offset". *)
Record t : Type := mk { id : Z; memId : Z; size : Z; offset : Z }.
Definition set_id (v : Z) (c : t) : t := mk v (memId c) (size c) (offset c).
Definition set_memId (v : Z) (c : t) : t := mk (id c) v (size c) (offset c).
Definition set_size (v : Z) (c : t) : t := mk (id c) (memId c) v (offset c).
Definition set_offset (v : Z) (c : t) : t := mk (id c) (memId c) (size c) v.
End NvDlaLoadableAddressListEntry.

Module Dims4.
(** Modelled from the spec: the type Dims4 of nvdla/IType.h and the type of
  the [dims] member of the C tensor descriptor, whose declarations are
  missing; a "4D shape" with the extents n, c, h, w that [toC] and [fromC]
  copy one by one. *)
Record t : Type := mk { n : Z; c : Z; h : Z; w : Z }.
Definition set_n (v : Z) (d : t) : t := mk v (c d) (h d) (w d).
Definition set_c (v : Z) (d : t) : t := mk (n d) v (h d) (w d).
Definition set_h (v : Z) (d : t) : t := mk (n d) (c d) v (w d).
Definition set_w (v : Z) (d : t) : t := mk (n d) (c d) (h d) v.
End Dims4.

Module NvDlaLoadableTensorDescListEntry.
(** Modelled from the spec: the struct NvDlaLoadableTensorDescListEntry, whose
  declaration is missing; "id, mem_id, size, offset, 4D shape, data
  format/type/category, pixel format/mapping, and stride triple". *)
Record t : Type := mk {
  id : Z; mem_id : Z; size : Z; offset : Z;
  dims : Dims4.t;
  dataFormat : Z; dataType : Z; dataCategory : Z;
  pixelFormat : Z; pixelMapping : Z;
  lineStride : Z; surfStride : Z; planeStride : Z
  }.
Definition set_id (v : Z) (x : t) : t :=
  mk v (mem_id x) (size x) (offset x) (dims x) (dataFormat x) (dataType x)
     (dataCategory x) (pixelFormat x) (pixelMapping x) (lineStride x)
     (surfStride x) (planeStride x).
Definition set_mem_id (v : Z) (x : t) : t :=
  mk (id x) v (size x) (offset x) (dims x) (dataFormat x) (dataType x)
     (dataCategory x) (pixelFormat x) (pixelMapping x) (lineStride x)
     (surfStride x) (planeStride x).
Definition set_size (v : Z) (x : t) : t :=
  mk (id x) (mem_id x) v (offset x) (dims x) (dataFormat x) (dataType x)
     (dataCategory x) (pixelFormat x) (pixelMapping x) (lineStride x)
     (surfStride x) (planeStride x).
Definition set_offset (v : Z) (x : t) : t :=
  mk (id x) (mem_id x) (size x) v (dims x) (dataFormat x) (dataType x)
     (dataCategory x) (pixelFormat x) (pixelMapping x) (lineStride x)
     (surfStride x) (planeStride x).
Definition set_dims (v : Dims4.t) (x : t) : t :=
  mk (id x) (mem_id x) (size x) (offset x) v (dataFormat x) (dataType x)
     (dataCategory x) (pixelFormat x) (pixelMapping x) (lineStride x)
     (surfStride x) (planeStride x).
Definition set_dataFormat (v : Z) (x : t) : t :=
  mk (id x) (mem_id x) (size x) (offset x) (dims x) v (dataType x)
     (dataCategory x) (pixelFormat x) (pixelMapping x) (lineStride x)
     (surfStride x) (planeStride x).
Definition set_dataType (v : Z) (x : t) : t :=
  mk (id x) (mem_id x) (size x) (offset x) (dims x) (dataFormat x) v
     (dataCategory x) (pixelFormat x) (pixelMapping x) (lineStride x)
     (surfStride x) (planeStride x).
Definition set_dataCategory (v : Z) (x : t) : t :=
  mk (id x) (mem_id x) (size x) (offset x) (dims x) (dataFormat x)
     (dataType x) v (pixelFormat x) (pixelMapping x) (lineStride x)
     (surfStride x) (planeStride x).
Definition set_pixelFormat (v : Z) (x : t) : t :=
  mk (id x) (mem_id x) (size x) (offset x) (dims x) (dataFormat x)
     (dataType x) (dataCategory x) v (pixelMapping x) (lineStride x)
     (surfStride x) (planeStride x).
Definition set_pixelMapping (v : Z) (x : t) : t :=
  mk (id x) (mem_id x) (size x) (offset x) (dims x) (dataFormat x)
     (dataType x) (dataCategory x) (pixelFormat x) v (lineStride x)
     (surfStride x) (planeStride x).
Definition set_lineStride (v : Z) (x : t) : t :=
  mk (id x) (mem_id x) (size x) (offset x) (dims x) (dataFormat x)
     (dataType x) (dataCategory x) (pixelFormat x) (pixelMapping x) v
     (surfStride x) (planeStride x).
Definition set_surfStride (v : Z) (x : t) : t :=
  mk (id x) (mem_id x) (size x) (offset x) (dims x) (dataFormat x)
     (dataType x) (dataCategory x) (pixelFormat x) (pixelMapping x)
     (lineStride x) v (planeStride x).
Definition set_planeStride (v : Z) (x : t) : t :=
  mk (id x) (mem_id x) (size x) (offset x) (dims x) (dataFormat x)
     (dataType x) (dataCategory x) (pixelFormat x) (pixelMapping x)
     (lineStride x) (surfStride x) v.
End NvDlaLoadableTensorDescListEntry.

(* ===================================================================== *)
(** ** class ILoadable: enums and record types *)
(* ===================================================================== *)

Module ILoadable.

Section Enums.
Context `{NvDlaLoadableH}.
Definition Interface_NONE : Z := NVDLA_LOADABLE_INTERFACE_NONE.
Definition Interface_DLA1 : Z := NVDLA_LOADABLE_INTERFACE_DLA1.
Definition MemoryDomain_SYSMEM : Z := NVDLA_LOADABLE_MEMORY_DOMAIN_SYSMEM.
Definition MemoryDomain_SRAM : Z := NVDLA_LOADABLE_MEMORY_DOMAIN_SRAM.
Definition MemoryFlags_NONE : Z := NVDLA_LOADABLE_MEMORY_FLAGS_NONE.
Definition MemoryFlags_ALLOC : Z := NVDLA_LOADABLE_MEMORY_FLAGS_ALLOC.
Definition MemoryFlags_SET : Z := NVDLA_LOADABLE_MEMORY_FLAGS_SET.
Definition MemoryFlags_INPUT : Z := NVDLA_LOADABLE_MEMORY_FLAGS_INPUT.
Definition MemoryFlags_OUTPUT : Z := NVDLA_LOADABLE_MEMORY_FLAGS_OUTPUT.
Definition EventOp_WAIT : Z := NVDLA_LOADABLE_EVENT_OP_WAIT.
Definition EventOp_SIGNAL : Z := NVDLA_LOADABLE_EVENT_OP_SIGNAL.
End Enums.

Module Version.
Record t : Type := mk { major : Z; minor : Z; sub_minor : Z }.
(** [Version(NvU8 maj, NvU8 min, NvU8 sub)] *)
Definition Version (maj min sub : Z) : t := mk maj min sub.
(** [Version()] *)
Definition Version0 : t := mk 0 0 0.
Definition toC (self : t) (c : NvDlaLoadableVersion.t)
  : NvDlaLoadableVersion.t :=
  let c := NvDlaLoadableVersion.set_major (major self) c in
  let c := NvDlaLoadableVersion.set_minor (minor self) c in
  let c := NvDlaLoadableVersion.set_subMinor (sub_minor self) c in
  c.
End Version.

(** [std::vector]'s copy constructor: a new vector holding a copy of each
  element, in order. *)
Fixpoint vector_copy {A : Type} (v : list A) : list A :=
  match v with
  | [] => []
  | x :: v' => x :: vector_copy v'
  end.

Module MemoryListEntry.
Record t : Type := mk {
  id : Z;              (* NvU16 *)
  size : Z;            (* NvU64 *)
  alignment : Z;       (* NvU32; 0 for n/a, otherwise byte alignment *)
  domain : Z;          (* NvU8 *)
  flags : Z;           (* NvU8; alloc or alloc_content or is-input or is-output *)
  bind_id : Z;         (* NvU16; valid iff flag_{input|output}() is set *)
  tensor_desc_id : Z;  (* NvU16; valid iff bind_id is valid ( != -1 ) *)
  contents : list string;  (* symbolic reference to content blob *)
  offsets : list Z         (* associated offset for contents *)
  }.
Section Statics.
Context `{NvDlaLoadableH}.
Definition domain_sysmem : Z := MemoryDomain_SYSMEM.
Definition flags_alloc : Z := MemoryFlags_ALLOC.
Definition flags_set : Z := MemoryFlags_SET.
Definition flags_input : Z := MemoryFlags_INPUT.
Definition flags_output : Z := MemoryFlags_OUTPUT.
End Statics.
(** [MemoryListEntry()] *)
Definition MemoryListEntry0 : t := mk 0 0 0 0 0 0 0 [] [].
(** [MemoryListEntry(const MemoryListEntry &o)] *)
Definition MemoryListEntry_copy (o : t) : t :=
  mk (id o) (size o) (alignment o) (domain o) (flags o)
     (bind_id o)
     (tensor_desc_id o)
     (vector_copy (contents o))
     (vector_copy (offsets o)).
End MemoryListEntry.

Module EventListEntry.
Record t : Type := mk { id : Z; target : Z; op : Z; val : Z }.
Section Statics.
Context `{NvDlaLoadableH}.
Definition op_wait : Z := EventOp_WAIT.
Definition op_signal : Z := EventOp_SIGNAL.
End Statics.
Definition toC (self : t) (c : NvDlaLoadableEventListEntry.t)
  : NvDlaLoadableEventListEntry.t :=
  let c := NvDlaLoadableEventListEntry.set_id (id self) c in
  let c := NvDlaLoadableEventListEntry.set_target (target self) c in
  let c := NvDlaLoadableEventListEntry.set_op (op self) c in
  let c := NvDlaLoadableEventListEntry.set_val (val self) c in
  c.
End EventListEntry.

Module TaskListEntry.
Record t : Type := mk {
  id : Z;                  (* NvU16 *)
  interface : Z;           (* NvU32; DLA interface id *)
  instance : Z;            (* NvS16; -1 := for any available *)
  preactions : list Z;     (* [event id]... *)
  postactions : list Z;    (* [event id]... *)
  address_list : list Z    (* [addr list id]...[addr list id] *)
  }.
Section Statics.
Context `{NvDlaLoadableH}.
Definition interface_NONE : Z := Interface_NONE.
Definition interface_DLA1 : Z := Interface_DLA1.
End Statics.
Definition instance_ANY : Z := -1.
End TaskListEntry.

Module SubmitListEntry.
Record t : Type := mk { id : Z; tasks : list Z }.
End SubmitListEntry.

Module AddressListEntry.
Record t : Type := mk {
  id : Z;      (* NvU16; all possible address list entries are given an id *)
  mem_id : Z;  (* NvU16; determines hRm (+offset from below) *)
  size : Z;    (* NvU64; assert size <= memory[mem_id].size *)
  offset : Z   (* NvU64; assert (offset + size) <= memory[mem_id].size *)
  }.
(** [AddressListEntry()] *)
Definition AddressListEntry0 : t := mk 0 0 0 0.
Definition toC (self : t) (c : NvDlaLoadableAddressListEntry.t)
  : NvDlaLoadableAddressListEntry.t :=
  let c := NvDlaLoadableAddressListEntry.set_id (id self) c in
  let c := NvDlaLoadableAddressListEntry.set_memId (mem_id self) c in
  let c := NvDlaLoadableAddressListEntry.set_size (size self) c in
  let c := NvDlaLoadableAddressListEntry.set_offset (offset self) c in
  c.
End AddressListEntry.

Module TensorDescListEntry.
(** The members [data_format] to [pixel_mapping] have the types
    DataFormat::UnderlyingType and the like, declared in nvdla/IType.h, which
    is not among the sources: integer types, carried as [Z]. *)
Record t : Type := mk {
  id : Z; mem_id : Z; size : Z; offset : Z;
  dims : Dims4.t;
  data_format : Z; data_type : Z; data_category : Z;
  pixel_format : Z; pixel_mapping : Z;
  line_stride : Z; surf_stride : Z; plane_stride : Z
  }.

Definition set_mem_id (v : Z) (x : t) : t :=
  mk (id x) v (size x) (offset x) (dims x) (data_format x) (data_type x)
     (data_category x) (pixel_format x) (pixel_mapping x) (line_stride x)
     (surf_stride x) (plane_stride x).

(** [fromC] assigns every member of [*this]; the members are written in
    the order of the source, each taken from the field of [c] the source
    names. *)
Definition fromC (self : t) (c : NvDlaLoadableTensorDescListEntry.t) : t :=
  let id' := NvDlaLoadableTensorDescListEntry.id c in
  let mem_id' := NvDlaLoadableTensorDescListEntry.mem_id c in
  let size' := NvDlaLoadableTensorDescListEntry.size c in
  let offset' := NvDlaLoadableTensorDescListEntry.offset c in
  let dims' := dims self in
  let dims' := Dims4.set_n (Dims4.n (NvDlaLoadableTensorDescListEntry.dims c)) dims' in
  let dims' := Dims4.set_c (Dims4.c (NvDlaLoadableTensorDescListEntry.dims c)) dims' in
  let dims' := Dims4.set_h (Dims4.h (NvDlaLoadableTensorDescListEntry.dims c)) dims' in
  let dims' := Dims4.set_w (Dims4.w (NvDlaLoadableTensorDescListEntry.dims c)) dims' in
  mk id' mem_id' size' offset' dims'
     (NvDlaLoadableTensorDescListEntry.dataFormat c)
     (NvDlaLoadableTensorDescListEntry.dataType c)
     (NvDlaLoadableTensorDescListEntry.dataCategory c)
     (NvDlaLoadableTensorDescListEntry.pixelFormat c)
     (NvDlaLoadableTensorDescListEntry.pixelMapping c)
     (NvDlaLoadableTensorDescListEntry.lineStride c)
     (NvDlaLoadableTensorDescListEntry.surfStride c)
     (NvDlaLoadableTensorDescListEntry.planeStride c).

(** [toC]: the second assignment of the source is [c.mem_id = id]. *)
Definition toC (self : t) (c : NvDlaLoadableTensorDescListEntry.t)
  : NvDlaLoadableTensorDescListEntry.t :=
  let c := NvDlaLoadableTensorDescListEntry.set_id (id self) c in
  let c := NvDlaLoadableTensorDescListEntry.set_mem_id (id self) c in
  let c := NvDlaLoadableTensorDescListEntry.set_size (size self) c in
  let c := NvDlaLoadableTensorDescListEntry.set_offset (offset self) c in
  let c := NvDlaLoadableTensorDescListEntry.set_dims
             (Dims4.set_n (Dims4.n (dims self)) (NvDlaLoadableTensorDescListEntry.dims c)) c in
  let c := NvDlaLoadableTensorDescListEntry.set_dims
             (Dims4.set_c (Dims4.c (dims self)) (NvDlaLoadableTensorDescListEntry.dims c)) c in
  let c := NvDlaLoadableTensorDescListEntry.set_dims
             (Dims4.set_h (Dims4.h (dims self)) (NvDlaLoadableTensorDescListEntry.dims c)) c in
  let c := NvDlaLoadableTensorDescListEntry.set_dims
             (Dims4.set_w (Dims4.w (dims self)) (NvDlaLoadableTensorDescListEntry.dims c)) c in
  let c := NvDlaLoadableTensorDescListEntry.set_dataFormat (data_format self) c in
  let c := NvDlaLoadableTensorDescListEntry.set_dataType (data_type self) c in
  let c := NvDlaLoadableTensorDescListEntry.set_dataCategory (data_category self) c in
  let c := NvDlaLoadableTensorDescListEntry.set_pixelFormat (pixel_format self) c in
  let c := NvDlaLoadableTensorDescListEntry.set_pixelMapping (pixel_mapping self) c in
  let c := NvDlaLoadableTensorDescListEntry.set_lineStride (line_stride self) c in
  let c := NvDlaLoadableTensorDescListEntry.set_surfStride (surf_stride self) c in
  let c := NvDlaLoadableTensorDescListEntry.set_planeStride (plane_stride self) c in
  c.
End TensorDescListEntry.

Module Blob.
Record t : Type := mk {
  name : string; size : Z; interface : Z; version : Version.t
  }.
End Blob.

End ILoadable.

(* ===================================================================== *)
(** ** Memory entries as objects *)
(* ===================================================================== *)

(** A [std::vector] member owns a block of element storage.  The blocks are
    kept by address, one map for the blocks of [std::string] elements and one
    for the blocks of [uint64_t] elements. *)
Module Storage.
Record t : Type := mk {
  string_blocks : gmap positive (list string);
  u64_blocks : gmap positive (list Z)
}.
End Storage.

Module MemoryListEntryObject.

(** A MemoryListEntry object: its scalar members, and for each vector member
    the address of the block it owns. *)
Record t : Type := mk {
  id : Z; size : Z; alignment : Z; domain : Z; flags : Z;
  bind_id : Z; tensor_desc_id : Z;
  contents : positive;
  offsets : positive
}.

(** The value an object holds in a storage. *)
Definition read (h : Storage.t) (o : t) : option ILoadable.MemoryListEntry.t :=
  match Storage.string_blocks h !! contents o, Storage.u64_blocks h !! offsets o with
  | Some cs, Some os =>
      Some (ILoadable.MemoryListEntry.mk (id o) (size o) (alignment o) (domain o)
              (flags o) (bind_id o) (tensor_desc_id o) cs os)
  | _, _ => None
  end.

(** [MemoryListEntry(const MemoryListEntry &o)] on objects: the scalar members
    are initialised from those of [o], and each vector member is
    copy-constructed from the one of [o], which takes a block of its own and
    copies the elements into it. *)
Definition copy (o : t) (h : Storage.t) : t * Storage.t :=
  let cs := default [] (Storage.string_blocks h !! contents o) in
  let os := default [] (Storage.u64_blocks h !! offsets o) in
  let pc := fresh (dom (Storage.string_blocks h)) in
  let po := fresh (dom (Storage.u64_blocks h)) in
  (mk (id o) (size o) (alignment o) (domain o) (flags o)
      (bind_id o)
      (tensor_desc_id o)
      pc
      po,
   Storage.mk (<[pc := ILoadable.vector_copy cs]> (Storage.string_blocks h))
              (<[po := ILoadable.vector_copy os]> (Storage.u64_blocks h))).

(** A write through the vector members of an object: the elements of its two
    blocks are replaced. *)
Definition write_vectors (o : t) (cs : list string) (os : list Z) (h : Storage.t)
  : Storage.t :=
  Storage.mk (<[contents o := cs]> (Storage.string_blocks h))
             (<[offsets o := os]> (Storage.u64_blocks h)).

End MemoryListEntryObject.

(* ===================================================================== *)
(** ** Results of the query layer *)
(* ===================================================================== *)

(** Modelled from the spec: the error kinds of section 7.  The header only
    names the type NvDlaError, declared in nvdla/c/NvDlaType.h, which is not
    among the sources. *)
Inductive ErrorKind : Type :=
| NotFound
| Unspecified
| VersionMismatch
| UnsupportedInterface
| InvalidRange
| UnboundInput
| UnboundOutput
| UnresolvedMemory
| UnresolvedEvent
| AllocationFailure.

(** What a call hands back: an entry, or the kind of its failure. *)
Inductive result (A : Type) : Type :=
| Ok (a : A)
| Err (e : ErrorKind).
Arguments Ok {A} a.
Arguments Err {A} e.

Definition bind {A B : Type} (r : result A) (k : A -> result B) : result B :=
  match r with
  | Ok a => k a
  | Err e => Err e
  end.

Notation "'do' x <- r ; k" := (bind r (fun x => k))
  (at level 10, x name, r at level 100, k at level 200).

(** Runs [f] over a list from its head, stopping at the first failure. *)
Fixpoint traverse {A B : Type} (f : A -> result B) (l : list A) : result (list B) :=
  match l with
  | [] => Ok []
  | x :: l' => do y <- f x; do ys <- traverse f l'; Ok (y :: ys)
  end.

(* ===================================================================== *)
(** ** The abstract interface *)
(* ===================================================================== *)

(** The pure virtual member functions of [ILoadable], all of them [const]: a
    call reads the object [l : L] and leaves it as it is.  The getters that
    return an entry by value report a failure through [result], as do the
    ones whose C++ return type is NvDlaError and whose value comes back
    through a pointer. *)
Class ILoadable_methods (L : Type) : Type := {
  getName : L -> string;
  getNumMemoryListEntries : L -> Z;
  getMemoryListEntry : L -> Z -> result ILoadable.MemoryListEntry.t;
  getNumEventListEntries : L -> Z;
  getEventListEntry : L -> Z -> result ILoadable.EventListEntry.t;
  getNumTaskListEntries : L -> Z;
  getTaskListEntry : L -> Z -> result ILoadable.TaskListEntry.t;
  getNumAddressListEntries : L -> Z;
  getAddressListEntry : L -> Z -> result ILoadable.AddressListEntry.t;
  getNumTensorDescListEntries : L -> Z;
  getTensorDescListEntry : L -> Z -> result ILoadable.TensorDescListEntry.t;
  getNetworkDataType : L -> result Z;
  getNumInputTensors : L -> result Z;
  getInputTensorDesc : L -> Z -> result ILoadable.TensorDescListEntry.t;
  getNumOutputTensors : L -> result Z;
  getOutputTensorDesc : L -> Z -> result ILoadable.TensorDescListEntry.t
}.

(* ===================================================================== *)
(** ** Record tables and capability query layer *)
(* ===================================================================== *)

Module Loadable.

(** Modelled from the spec: the parsed loadable behind the interface, whose
    implementation is not among the sources.  Section 3: the tables are
    populated once and immutable afterwards, and identifiers are table-local
    indices. *)
Record t : Type := mk {
  name : string;
  memory : list ILoadable.MemoryListEntry.t;
  events : list ILoadable.EventListEntry.t;
  tasks : list ILoadable.TaskListEntry.t;
  addresses : list ILoadable.AddressListEntry.t;
  tensors : list ILoadable.TensorDescListEntry.t;
  submits : list ILoadable.SubmitListEntry.t;
  network_data_type : option Z
}.

(** Modelled from the spec: [count()] of a table (section 4.1); the header
    declares the getNum*ListEntries functions with return type int. *)
Definition count {A : Type} (table : list A) : Z := Z.of_nat (length table).

(** Modelled from the spec: [get(id) -> Entry], which "fails with NotFound if
    id is out of the table's declared range" (section 4.1). *)
Definition get {A : Type} (table : list A) (id : Z) : result A :=
  if bool_decide (0 <= id < count table) then
    match table !! Z.to_nat id with
    | Some e => Ok e
    | None => Err NotFound
    end
  else Err NotFound.

(** Whether [flag] is set in the flags bitset of a memory entry. *)
Definition has_flag (flag : Z) (m : ILoadable.MemoryListEntry.t) : bool :=
  negb (Z.land (ILoadable.MemoryListEntry.flags m) flag =? 0).

(** The order of memory entries by [bind_id]. *)
Definition bind_le (a b : ILoadable.MemoryListEntry.t) : Prop :=
  ILoadable.MemoryListEntry.bind_id a <= ILoadable.MemoryListEntry.bind_id b.

#[export] Instance bind_le_dec : RelDecision bind_le.
Proof. intros a b. unfold bind_le. apply _. Defined.

(** Modelled from the spec: the memory entries that own a declared tensor of
    the direction [flag], "ordered by ascending bind_id" (section 4.1). *)
Definition owners (flag : Z) (l : t) : list ILoadable.MemoryListEntry.t :=
  merge_sort bind_le (filter (fun m => has_flag flag m = true) (memory l)).

(** Modelled from the spec: [inputTensors()]/[outputTensors()], which "return
    the subsequence of TensorDescListEntry whose owning Memory entry has the
    INPUT/OUTPUT flag set, ordered by ascending bind_id" (section 4.1).  The
    owning entry names its tensor by [tensor_desc_id] (section 3). *)
Definition tensorsOf (flag : Z) (l : t) : result (list ILoadable.TensorDescListEntry.t) :=
  traverse (fun m => get (tensors l) (ILoadable.MemoryListEntry.tensor_desc_id m))
           (owners flag l).

Definition inputTensors `{NvDlaLoadableH} (l : t) :=
  tensorsOf ILoadable.MemoryListEntry.flags_input l.

Definition outputTensors `{NvDlaLoadableH} (l : t) :=
  tensorsOf ILoadable.MemoryListEntry.flags_output l.

(** Modelled from the spec: [getInputTensorDesc(bind_id, &out)] and its output
    analogue (section 6): the tensor owned by the flagged memory entry bound
    to [bind_id]; a [bind_id] no such entry carries is a bad id. *)
Definition tensorDescOf (flag : Z) (l : t) (bind_id : Z)
  : result ILoadable.TensorDescListEntry.t :=
  match list_find (fun m => ILoadable.MemoryListEntry.bind_id m = bind_id) (owners flag l) with
  | Some (_, m) => get (tensors l) (ILoadable.MemoryListEntry.tensor_desc_id m)
  | None => Err NotFound
  end.

(** Modelled from the spec: [networkDataType()], which "fails with
    Unspecified if the loadable declares none" (section 4.1). *)
Definition networkDataType (l : t) : result Z :=
  match network_data_type l with
  | Some dt => Ok dt
  | None => Err Unspecified
  end.

End Loadable.

(** Modelled from the spec: the capability query layer over the record tables
    (sections 4.1 and 6), as an implementation of the interface. *)
#[export] Instance Loadable_methods `{NvDlaLoadableH} : ILoadable_methods Loadable.t := {|
  getName := Loadable.name;
  getNumMemoryListEntries l := Loadable.count (Loadable.memory l);
  getMemoryListEntry l id := Loadable.get (Loadable.memory l) id;
  getNumEventListEntries l := Loadable.count (Loadable.events l);
  getEventListEntry l id := Loadable.get (Loadable.events l) id;
  getNumTaskListEntries l := Loadable.count (Loadable.tasks l);
  getTaskListEntry l id := Loadable.get (Loadable.tasks l) id;
  getNumAddressListEntries l := Loadable.count (Loadable.addresses l);
  getAddressListEntry l id := Loadable.get (Loadable.addresses l) id;
  getNumTensorDescListEntries l := Loadable.count (Loadable.tensors l);
  getTensorDescListEntry l id := Loadable.get (Loadable.tensors l) id;
  getNetworkDataType := Loadable.networkDataType;
  getNumInputTensors l := do ts <- Loadable.inputTensors l; Ok (Loadable.count ts);
  getInputTensorDesc l id := Loadable.tensorDescOf ILoadable.MemoryListEntry.flags_input l id;
  getNumOutputTensors l := do ts <- Loadable.outputTensors l; Ok (Loadable.count ts);
  getOutputTensorDesc l id := Loadable.tensorDescOf ILoadable.MemoryListEntry.flags_output l id
|}.

(* ===================================================================== *)
(** ** Concrete values *)
(* ===================================================================== *)

Definition sample_dims : Dims4.t := Dims4.mk 1 3 224 224.

Definition sample_tensor (id mem_id : Z) : ILoadable.TensorDescListEntry.t :=
  ILoadable.TensorDescListEntry.mk id mem_id 150528 0 sample_dims 0 2 1 36 0 224 50176 0.

Definition blank_c_tensor : NvDlaLoadableTensorDescListEntry.t :=
  NvDlaLoadableTensorDescListEntry.mk 0 0 0 0 (Dims4.mk 0 0 0 0) 0 0 0 0 0 0 0 0.

Definition sample_memory (id flags bind_id tensor_desc_id : Z)
  : ILoadable.MemoryListEntry.t :=
  ILoadable.MemoryListEntry.mk id 150528 0 0 flags bind_id tensor_desc_id [] [].

Definition sample_storage : Storage.t :=
  Storage.mk {[ 1%positive := ["weights"; "bias"] ]} {[ 1%positive := [0; 4096] ]}.

Definition sample_object : MemoryListEntryObject.t :=
  MemoryListEntryObject.mk 0 8192 0 0 3 0 0 1%positive 1%positive.

(** Four memory entries: an input bound to 1, a scratch buffer, an input
    bound to 0 and an output bound to 0; and the three tensors they own. *)
Definition sample_loadable : Loadable.t :=
  Loadable.mk "sample"
    [ sample_memory 0 5 1 0; sample_memory 1 1 0 0;
      sample_memory 2 4 0 1; sample_memory 3 8 0 2 ]
    [ ILoadable.EventListEntry.mk 0 0 1 0 ]
    [ ILoadable.TaskListEntry.mk 0 1 (-1) [] [0] [0] ]
    [ ILoadable.AddressListEntry.mk 0 0 150528 0 ]
    [ sample_tensor 0 0; sample_tensor 1 2; sample_tensor 2 3 ]
    [ ILoadable.SubmitListEntry.mk 0 [0] ]
    (Some 2).

(** What is asked of the list [ts] handed back for the direction [flag]:
    there is a list [ms] of memory entries that holds exactly the entries of
    the memory table with [flag] set (each as often as the table does), in
    ascending order of [bind_id], such that [ts] lists, in the same order,
    the entries of the tensor table that these memory entries name by
    [tensor_desc_id]. *)
Definition tensors_selected (flag : Z) (l : Loadable.t)
    (ts : list ILoadable.TensorDescListEntry.t) : Prop :=
  exists ms : list ILoadable.MemoryListEntry.t,
    ms ≡ₚ filter (fun m => Z.land (ILoadable.MemoryListEntry.flags m) flag <> 0)
                 (Loadable.memory l) /\
    StronglySorted (fun a b => ILoadable.MemoryListEntry.bind_id a
                               <= ILoadable.MemoryListEntry.bind_id b) ms /\
    Forall2 (fun m t =>
               0 <= ILoadable.MemoryListEntry.tensor_desc_id m
                 < Loadable.count (Loadable.tensors l) /\
               Loadable.tensors l !! Z.to_nat (ILoadable.MemoryListEntry.tensor_desc_id m)
               = Some t) ms ts /\
    Forall (fun t => t ∈ Loadable.tensors l) ts.

(** A storage with the blocks of two memory entry objects, and the two
    objects. *)
Definition two_entry_storage : Storage.t :=
  Storage.mk {[ 1%positive := ["weights"; "bias"]; 2%positive := ["scratch"] ]}
             {[ 1%positive := [0; 4096]; 2%positive := [64] ]}.

Definition first_object : MemoryListEntryObject.t :=
  MemoryListEntryObject.mk 0 8192 0 0 3 0 0 1%positive 1%positive.

Definition second_object : MemoryListEntryObject.t :=
  MemoryListEntryObject.mk 1 256 0 0 1 0 0 2%positive 2%positive.

(* ===================================================================== *)
(** ** Conversions to and from the wire shapes *)
(* ===================================================================== *)

(** What [toC] leaves in [c] does not depend on what [c] held before. *)
Lemma Version_toC_overwrites (v : ILoadable.Version.t) (c c' : NvDlaLoadableVersion.t) :
  ILoadable.Version.toC v c = ILoadable.Version.toC v c'.
Proof. reflexivity. Qed.

Lemma EventListEntry_toC_overwrites (e : ILoadable.EventListEntry.t)
    (c c' : NvDlaLoadableEventListEntry.t) :
  ILoadable.EventListEntry.toC e c = ILoadable.EventListEntry.toC e c'.
Proof. reflexivity. Qed.

Lemma AddressListEntry_toC_overwrites (a : ILoadable.AddressListEntry.t)
    (c c' : NvDlaLoadableAddressListEntry.t) :
  ILoadable.AddressListEntry.toC a c = ILoadable.AddressListEntry.toC a c'.
Proof. reflexivity. Qed.

Lemma Version_toC_inj (v1 v2 : ILoadable.Version.t) (c1 c2 : NvDlaLoadableVersion.t) :
  ILoadable.Version.toC v1 c1 = ILoadable.Version.toC v2 c2 -> v1 = v2.
Proof.
  destruct v1 as [a1 b1 s1], v2 as [a2 b2 s2].
  unfold ILoadable.Version.toC; cbn.
  intros E. injection E as -> -> ->. reflexivity.
Qed.

Lemma EventListEntry_toC_inj (e1 e2 : ILoadable.EventListEntry.t)
    (c1 c2 : NvDlaLoadableEventListEntry.t) :
  ILoadable.EventListEntry.toC e1 c1 = ILoadable.EventListEntry.toC e2 c2 -> e1 = e2.
Proof.
  destruct e1, e2. unfold ILoadable.EventListEntry.toC; cbn.
  intros E. injection E as -> -> -> ->. reflexivity.
Qed.

Lemma AddressListEntry_toC_inj (a1 a2 : ILoadable.AddressListEntry.t)
    (c1 c2 : NvDlaLoadableAddressListEntry.t) :
  ILoadable.AddressListEntry.toC a1 c1 = ILoadable.AddressListEntry.toC a2 c2 -> a1 = a2.
Proof.
  destruct a1, a2. unfold ILoadable.AddressListEntry.toC; cbn.
  intros E. injection E as -> -> -> ->. reflexivity.
Qed.

(** C9: [Version::toC], [EventListEntry::toC] and [AddressListEntry::toC] copy
    every field unchanged into the wire shape (major, minor, sub_minor; id,
    target, op, val; id, mem_id, size, offset), whatever the wire struct held
    before, and two values with the same wire image are equal: the three
    conversions are field-faithful injections. *)
Theorem toC_field_faithful :
  (forall (v : ILoadable.Version.t) (c : NvDlaLoadableVersion.t),
      let c' := ILoadable.Version.toC v c in
      NvDlaLoadableVersion.major c' = ILoadable.Version.major v /\
      NvDlaLoadableVersion.minor c' = ILoadable.Version.minor v /\
      NvDlaLoadableVersion.subMinor c' = ILoadable.Version.sub_minor v) /\
  (forall (e : ILoadable.EventListEntry.t) (c : NvDlaLoadableEventListEntry.t),
      let c' := ILoadable.EventListEntry.toC e c in
      NvDlaLoadableEventListEntry.id c' = ILoadable.EventListEntry.id e /\
      NvDlaLoadableEventListEntry.target c' = ILoadable.EventListEntry.target e /\
      NvDlaLoadableEventListEntry.op c' = ILoadable.EventListEntry.op e /\
      NvDlaLoadableEventListEntry.val c' = ILoadable.EventListEntry.val e) /\
  (forall (a : ILoadable.AddressListEntry.t) (c : NvDlaLoadableAddressListEntry.t),
      let c' := ILoadable.AddressListEntry.toC a c in
      NvDlaLoadableAddressListEntry.id c' = ILoadable.AddressListEntry.id a /\
      NvDlaLoadableAddressListEntry.memId c' = ILoadable.AddressListEntry.mem_id a /\
      NvDlaLoadableAddressListEntry.size c' = ILoadable.AddressListEntry.size a /\
      NvDlaLoadableAddressListEntry.offset c' = ILoadable.AddressListEntry.offset a) /\
  (forall v1 v2 c1 c2,
      ILoadable.Version.toC v1 c1 = ILoadable.Version.toC v2 c2 <-> v1 = v2) /\
  (forall e1 e2 c1 c2,
      ILoadable.EventListEntry.toC e1 c1 = ILoadable.EventListEntry.toC e2 c2 <-> e1 = e2) /\
  (forall a1 a2 c1 c2,
      ILoadable.AddressListEntry.toC a1 c1 = ILoadable.AddressListEntry.toC a2 c2 <-> a1 = a2).
Proof.
  repeat split; try reflexivity.
  - apply Version_toC_inj.
  - intros ->. apply Version_toC_overwrites.
  - apply EventListEntry_toC_inj.
  - intros ->. apply EventListEntry_toC_overwrites.
  - apply AddressListEntry_toC_inj.
  - intros ->. apply AddressListEntry_toC_overwrites.
Qed.

(** The round trip of a tensor descriptor through the wire shape keeps every
    field but [mem_id], which comes back holding [id]. *)
Lemma TensorDescListEntry_fromC_toC (e self : ILoadable.TensorDescListEntry.t)
    (c : NvDlaLoadableTensorDescListEntry.t) :
  ILoadable.TensorDescListEntry.fromC self (ILoadable.TensorDescListEntry.toC e c)
  = ILoadable.TensorDescListEntry.set_mem_id (ILoadable.TensorDescListEntry.id e) e.
Proof.
  destruct e as [i m s o [dn dc dh dw] f1 f2 f3 f4 f5 s1 s2 s3].
  reflexivity.
Qed.

(** Hence the round trip gives the entry back exactly when its [mem_id]
    equals its [id]. *)
Lemma TensorDescListEntry_roundtrip_iff (e self : ILoadable.TensorDescListEntry.t)
    (c : NvDlaLoadableTensorDescListEntry.t) :
  ILoadable.TensorDescListEntry.fromC self (ILoadable.TensorDescListEntry.toC e c) = e
  <-> ILoadable.TensorDescListEntry.mem_id e = ILoadable.TensorDescListEntry.id e.
Proof.
  rewrite TensorDescListEntry_fromC_toC.
  destruct e as [i m s o d f1 f2 f3 f4 f5 s1 s2 s3]; cbn.
  split.
  - intros E. injection E as ->. reflexivity.
  - intros ->. reflexivity.
Qed.

(** C1: the round trip [fromC (toC e)] at the tensor descriptor with id 7 and
    mem_id 3: the entry that comes back has mem_id 7, so it differs from the
    original; [toC] writes [id] into the wire field [mem_id]. *)
Theorem TensorDescListEntry_roundtrip_mem_id_lost :
  let e := sample_tensor 7 3 in
  let e' := ILoadable.TensorDescListEntry.fromC e
              (ILoadable.TensorDescListEntry.toC e blank_c_tensor) in
  NvDlaLoadableTensorDescListEntry.mem_id
    (ILoadable.TensorDescListEntry.toC e blank_c_tensor) = 7 /\
  ILoadable.TensorDescListEntry.mem_id e = 3 /\
  ILoadable.TensorDescListEntry.mem_id e' = 7 /\
  e' <> e.
Proof.
  cbn. repeat split. discriminate.
Qed.

(* ===================================================================== *)
(** ** Memory entries: construction and copy *)
(* ===================================================================== *)

Lemma vector_copy_eq {A : Type} (v : list A) : ILoadable.vector_copy v = v.
Proof. induction v as [|x v IH]; cbn; [reflexivity | now rewrite IH]. Qed.

(** C8: a default-constructed MemoryListEntry has bind_id = 0,
    tensor_desc_id = 0 and flags = 0: the two ids are in the range of NvU16
    and differ from the sentinel 0xFFFF (that is, -1 as an NvU16); neither
    INPUT nor OUTPUT is set; and any entry that carries the valid binding id
    0 has the very same bind_id, so only the flags tell the two apart. *)
Theorem MemoryListEntry0_bind_id_zero `{NvDlaLoadableH} :
  let e := ILoadable.MemoryListEntry.MemoryListEntry0 in
  ILoadable.MemoryListEntry.bind_id e = 0 /\
  ILoadable.MemoryListEntry.tensor_desc_id e = 0 /\
  ILoadable.MemoryListEntry.flags e = 0 /\
  to_NvU16 (-1) = 65535 /\
  ILoadable.MemoryListEntry.bind_id e <> to_NvU16 (-1) /\
  ILoadable.MemoryListEntry.tensor_desc_id e <> to_NvU16 (-1) /\
  NvU16_range (ILoadable.MemoryListEntry.bind_id e) /\
  NvU16_range (ILoadable.MemoryListEntry.tensor_desc_id e) /\
  Z.land (ILoadable.MemoryListEntry.flags e) ILoadable.MemoryListEntry.flags_input = 0 /\
  Z.land (ILoadable.MemoryListEntry.flags e) ILoadable.MemoryListEntry.flags_output = 0 /\
  (forall m : ILoadable.MemoryListEntry.t,
      Z.land (ILoadable.MemoryListEntry.flags m) ILoadable.MemoryListEntry.flags_input <> 0 ->
      ILoadable.MemoryListEntry.bind_id m = 0 ->
      ILoadable.MemoryListEntry.bind_id m = ILoadable.MemoryListEntry.bind_id e).
Proof.
  cbn. unfold to_NvU16, NvU16_range.
  repeat split; try reflexivity; try discriminate; try lia; auto.
Qed.

Lemma MemoryListEntry0_bind_id_zero_witness :
  let m := sample_memory 2 4 0 1 in
  Z.land (ILoadable.MemoryListEntry.flags m)
         (@ILoadable.MemoryListEntry.flags_input sample_header) <> 0 /\
  ILoadable.MemoryListEntry.bind_id m = 0 /\
  ILoadable.MemoryListEntry.bind_id m
  = ILoadable.MemoryListEntry.bind_id ILoadable.MemoryListEntry.MemoryListEntry0.
Proof.
  intros m.
  assert (F : Z.land (ILoadable.MemoryListEntry.flags m)
                     (@ILoadable.MemoryListEntry.flags_input sample_header) <> 0)
    by (vm_compute; discriminate).
  assert (B : ILoadable.MemoryListEntry.bind_id m = 0) by reflexivity.
  pose proof (@MemoryListEntry0_bind_id_zero sample_header) as W.
  cbv zeta in W.
  exact (conj F (conj B (proj2 (proj2 (proj2 (proj2 (proj2 (proj2 (proj2 (proj2
           (proj2 (proj2 W))))))))) m F B))).
Defined.

Lemma MemoryListEntry_copy_id (o : ILoadable.MemoryListEntry.t) :
  ILoadable.MemoryListEntry.MemoryListEntry_copy o = o.
Proof.
  destruct o as [i s a d f b t cs os].
  unfold ILoadable.MemoryListEntry.MemoryListEntry_copy; cbn.
  rewrite !vector_copy_eq. reflexivity.
Qed.

(** What a copy-constructed object holds, and what the source holds after
    the construction and after any write through the copy. *)
Lemma MemoryListEntryObject_copy_read (h : Storage.t) (o : MemoryListEntryObject.t)
    (v : ILoadable.MemoryListEntry.t) :
  MemoryListEntryObject.read h o = Some v ->
  let '(o', h') := MemoryListEntryObject.copy o h in
  MemoryListEntryObject.read h' o' = Some v /\
  MemoryListEntryObject.read h' o = Some v /\
  MemoryListEntryObject.contents o' <> MemoryListEntryObject.contents o /\
  MemoryListEntryObject.offsets o' <> MemoryListEntryObject.offsets o /\
  forall cs os,
    MemoryListEntryObject.read (MemoryListEntryObject.write_vectors o' cs os h') o = Some v.
Proof.
  destruct o as [i s a d f b t pc po], h as [hs hu].
  unfold MemoryListEntryObject.read, MemoryListEntryObject.copy,
    MemoryListEntryObject.write_vectors; cbn.
  destruct (hs !! pc) as [cs|] eqn:Ec; [|discriminate].
  destruct (hu !! po) as [os|] eqn:Eo; [|discriminate].
  intros [= <-]. cbn.
  assert (Fc : fresh (dom hs) <> pc).
  { intros E. apply (is_fresh (dom hs)). rewrite E. apply elem_of_dom. eauto. }
  assert (Fo : fresh (dom hu) <> po).
  { intros E. apply (is_fresh (dom hu)). rewrite E. apply elem_of_dom. eauto. }
  rewrite !lookup_insert_eq, !vector_copy_eq.
  rewrite !lookup_insert_ne by assumption. rewrite Ec, Eo.
  repeat split; try assumption.
  intros cs' os'. rewrite !lookup_insert_ne by assumption.
  rewrite Ec, Eo. reflexivity.
Qed.

(** C10: the copy constructor of MemoryListEntry yields an entry equal to its
    source field for field, the two vectors included, element for element.
    On objects, the copy holds the value of the source in blocks of its own:
    the source still holds its value after the construction and after any
    write through the vectors of the copy. *)
Theorem MemoryListEntry_copy_faithful (o : ILoadable.MemoryListEntry.t) :
  let e := ILoadable.MemoryListEntry.MemoryListEntry_copy o in
  (ILoadable.MemoryListEntry.id e = ILoadable.MemoryListEntry.id o /\
   ILoadable.MemoryListEntry.size e = ILoadable.MemoryListEntry.size o /\
   ILoadable.MemoryListEntry.alignment e = ILoadable.MemoryListEntry.alignment o /\
   ILoadable.MemoryListEntry.domain e = ILoadable.MemoryListEntry.domain o /\
   ILoadable.MemoryListEntry.flags e = ILoadable.MemoryListEntry.flags o /\
   ILoadable.MemoryListEntry.bind_id e = ILoadable.MemoryListEntry.bind_id o /\
   ILoadable.MemoryListEntry.tensor_desc_id e = ILoadable.MemoryListEntry.tensor_desc_id o /\
   length (ILoadable.MemoryListEntry.contents e) = length (ILoadable.MemoryListEntry.contents o) /\
   length (ILoadable.MemoryListEntry.offsets e) = length (ILoadable.MemoryListEntry.offsets o) /\
   (forall i : nat, ILoadable.MemoryListEntry.contents e !! i
                    = ILoadable.MemoryListEntry.contents o !! i) /\
   (forall i : nat, ILoadable.MemoryListEntry.offsets e !! i
                    = ILoadable.MemoryListEntry.offsets o !! i) /\
   e = o) /\
  (forall (h : Storage.t) (src : MemoryListEntryObject.t),
      MemoryListEntryObject.read h src = Some o ->
      let '(dst, h') := MemoryListEntryObject.copy src h in
      MemoryListEntryObject.read h' dst = Some e /\
      MemoryListEntryObject.read h' src = Some o /\
      MemoryListEntryObject.contents dst <> MemoryListEntryObject.contents src /\
      MemoryListEntryObject.offsets dst <> MemoryListEntryObject.offsets src /\
      forall cs os,
        MemoryListEntryObject.read (MemoryListEntryObject.write_vectors dst cs os h') src
        = Some o).
Proof.
  intros e. subst e. rewrite MemoryListEntry_copy_id. split.
  - repeat split; reflexivity.
  - intros h src. apply MemoryListEntryObject_copy_read.
Qed.

Lemma MemoryListEntry_copy_faithful_witness :
  MemoryListEntryObject.read sample_storage sample_object
    = Some (ILoadable.MemoryListEntry.mk 0 8192 0 0 3 0 0 ["weights"; "bias"] [0; 4096]) /\
  (let '(dst, h') := MemoryListEntryObject.copy sample_object sample_storage in
   MemoryListEntryObject.read h' dst
     = Some (ILoadable.MemoryListEntry.MemoryListEntry_copy
               (ILoadable.MemoryListEntry.mk 0 8192 0 0 3 0 0 ["weights"; "bias"] [0; 4096])) /\
   MemoryListEntryObject.read
     (MemoryListEntryObject.write_vectors dst ["other"] [] h') sample_object
     = Some (ILoadable.MemoryListEntry.mk 0 8192 0 0 3 0 0 ["weights"; "bias"] [0; 4096])).
Proof.
  assert (R : MemoryListEntryObject.read sample_storage sample_object
              = Some (ILoadable.MemoryListEntry.mk 0 8192 0 0 3 0 0
                        ["weights"; "bias"] [0; 4096])) by (vm_compute; reflexivity).
  split; [exact R|].
  pose proof (proj2 (MemoryListEntry_copy_faithful _) sample_storage sample_object R) as W.
  destruct (MemoryListEntryObject.copy sample_object sample_storage) as [dst h'].
  destruct W as (W1 & _ & _ & _ & W5).
  exact (conj W1 (W5 ["other"] [])).
Defined.

(* ===================================================================== *)
(** ** The capability query layer *)
(* ===================================================================== *)

Lemma get_out_of_range {A : Type} (table : list A) (id : Z) :
  Loadable.count table <= id -> Loadable.get table id = Err NotFound.
Proof.
  intros Hge. unfold Loadable.get.
  rewrite bool_decide_eq_false_2; [reflexivity | lia].
Qed.

Lemma get_Ok_lookup {A : Type} (table : list A) (id : Z) (e : A) :
  Loadable.get table id = Ok e <->
  0 <= id < Loadable.count table /\ table !! Z.to_nat id = Some e.
Proof.
  unfold Loadable.get. case_bool_decide as Hr.
  - destruct (table !! Z.to_nat id) as [x|] eqn:E; split.
    + intros [= ->]. auto.
    + intros [_ [= ->]]. reflexivity.
    + discriminate.
    + intros [_ [=]].
  - split; [discriminate | intros [Hr' _]; contradiction].
Qed.

Lemma get_in_range {A : Type} (table : list A) (id : Z) :
  0 <= id < Loadable.count table -> exists e, Loadable.get table id = Ok e.
Proof.
  intros Hr. unfold Loadable.count in Hr.
  destruct (lookup_lt_is_Some_2 table (Z.to_nat id)) as [e He]; [lia|].
  exists e. apply get_Ok_lookup. split; [exact Hr | exact He].
Qed.

Lemma get_Ok_elem_of {A : Type} (table : list A) (id : Z) (e : A) :
  Loadable.get table id = Ok e -> e ∈ table.
Proof.
  intros [_ Hl]%get_Ok_lookup. eapply list_elem_of_lookup_2, Hl.
Qed.

(** C4: each of getMemoryListEntry, getEventListEntry, getTaskListEntry,
    getAddressListEntry and getTensorDescListEntry, called with an id at or
    past the count of its table, fails with NotFound. *)
Theorem get_past_count_NotFound `{NvDlaLoadableH} (l : Loadable.t) (id : Z) :
  (getNumMemoryListEntries l <= id -> getMemoryListEntry l id = Err NotFound) /\
  (getNumEventListEntries l <= id -> getEventListEntry l id = Err NotFound) /\
  (getNumTaskListEntries l <= id -> getTaskListEntry l id = Err NotFound) /\
  (getNumAddressListEntries l <= id -> getAddressListEntry l id = Err NotFound) /\
  (getNumTensorDescListEntries l <= id -> getTensorDescListEntry l id = Err NotFound).
Proof.
  cbn. repeat split; apply get_out_of_range.
Qed.

Lemma get_past_count_NotFound_witness :
  let l := sample_loadable in
  let M := @Loadable_methods sample_header in
  (@getNumMemoryListEntries _ M l <= 4 /\ @getMemoryListEntry _ M l 4 = Err NotFound) /\
  (@getNumEventListEntries _ M l <= 4 /\ @getEventListEntry _ M l 4 = Err NotFound) /\
  (@getNumTaskListEntries _ M l <= 4 /\ @getTaskListEntry _ M l 4 = Err NotFound) /\
  (@getNumAddressListEntries _ M l <= 4 /\ @getAddressListEntry _ M l 4 = Err NotFound) /\
  (@getNumTensorDescListEntries _ M l <= 4 /\ @getTensorDescListEntry _ M l 4 = Err NotFound).
Proof.
  intros l M.
  destruct (@get_past_count_NotFound sample_header l 4) as (H1 & H2 & H3 & H4 & H5).
  assert (G1 : @getNumMemoryListEntries _ M l <= 4) by (vm_compute; discriminate).
  assert (G2 : @getNumEventListEntries _ M l <= 4) by (vm_compute; discriminate).
  assert (G3 : @getNumTaskListEntries _ M l <= 4) by (vm_compute; discriminate).
  assert (G4 : @getNumAddressListEntries _ M l <= 4) by (vm_compute; discriminate).
  assert (G5 : @getNumTensorDescListEntries _ M l <= 4) by (vm_compute; discriminate).
  exact (conj (conj G1 (H1 G1)) (conj (conj G2 (H2 G2)) (conj (conj G3 (H3 G3))
           (conj (conj G4 (H4 G4)) (conj G5 (H5 G5)))))).
Defined.

(** [traverse] succeeds exactly with the pointwise results. *)
Lemma traverse_Ok {A B : Type} (f : A -> result B) (l : list A) (ys : list B) :
  traverse f l = Ok ys <-> Forall2 (fun x y => f x = Ok y) l ys.
Proof.
  revert ys. induction l as [|x l IH]; intros ys; cbn.
  - split.
    + intros [= <-]. constructor.
    + intros Hf. inversion Hf. reflexivity.
  - destruct (f x) as [y|e] eqn:Ef; cbn.
    + destruct (traverse f l) as [ys'|e] eqn:Et; cbn.
      * split.
        -- intros [= <-]. constructor; [exact Ef | apply IH; reflexivity].
        -- intros Hf. inversion Hf as [|? y0 ? ys0 Hy Hys]; subst.
           apply IH in Hys. congruence.
      * split; [discriminate|].
        intros Hf. inversion Hf as [|? y0 ? ys0 Hy Hys]; subst.
        apply IH in Hys. discriminate.
    + split; [discriminate|].
      intros Hf. inversion Hf; subst. congruence.
Qed.

Lemma traverse_total {A B : Type} (f : A -> result B) (l : list A) :
  Forall (fun x => exists y, f x = Ok y) l -> exists ys, traverse f l = Ok ys.
Proof.
  induction 1 as [|x l [y Hy] _ [ys Hys]]; cbn.
  - eexists; reflexivity.
  - rewrite Hy, Hys. cbn. eexists; reflexivity.
Qed.

#[local] Instance bind_le_total : Total Loadable.bind_le.
Proof. intros a b. unfold Loadable.bind_le. lia. Qed.

#[local] Instance bind_le_trans : Transitive Loadable.bind_le.
Proof. intros a b c. unfold Loadable.bind_le. lia. Qed.

Lemma has_flag_true (flag : Z) (m : ILoadable.MemoryListEntry.t) :
  Loadable.has_flag flag m = true <-> Z.land (ILoadable.MemoryListEntry.flags m) flag <> 0.
Proof.
  unfold Loadable.has_flag. rewrite negb_true_iff, Z.eqb_neq. reflexivity.
Qed.

Lemma owners_spec (flag : Z) (l : Loadable.t) :
  Loadable.owners flag l
    ≡ₚ filter (fun m => Z.land (ILoadable.MemoryListEntry.flags m) flag <> 0) (Loadable.memory l)
  /\ StronglySorted Loadable.bind_le (Loadable.owners flag l).
Proof.
  unfold Loadable.owners. split.
  - rewrite merge_sort_Permutation.
    erewrite list_filter_iff; [reflexivity|]. intros m. apply has_flag_true.
  - apply StronglySorted_merge_sort; apply _.
Qed.

Lemma tensorsOf_spec (flag : Z) (l : Loadable.t)
    (ts : list ILoadable.TensorDescListEntry.t) :
  Loadable.tensorsOf flag l = Ok ts ->
  exists ms : list ILoadable.MemoryListEntry.t,
    ms ≡ₚ filter (fun m => Z.land (ILoadable.MemoryListEntry.flags m) flag <> 0)
                 (Loadable.memory l) /\
    StronglySorted Loadable.bind_le ms /\
    Forall2 (fun m t =>
               Loadable.get (Loadable.tensors l) (ILoadable.MemoryListEntry.tensor_desc_id m)
               = Ok t) ms ts /\
    Forall (fun t => t ∈ Loadable.tensors l) ts.
Proof.
  unfold Loadable.tensorsOf. intros Hf%traverse_Ok.
  exists (Loadable.owners flag l).
  destruct (owners_spec flag l) as [Hp Hs].
  repeat split; try assumption.
  clear Hp Hs.
  induction Hf as [|m t ms ts' Hm _ IH]; constructor; [|exact IH].
  eapply get_Ok_elem_of, Hm.
Qed.

Lemma tensorsOf_total (flag : Z) (l : Loadable.t) :
  (forall m, m ∈ Loadable.memory l ->
             Z.land (ILoadable.MemoryListEntry.flags m) flag <> 0 ->
             0 <= ILoadable.MemoryListEntry.tensor_desc_id m < Loadable.count (Loadable.tensors l)) ->
  exists ts, Loadable.tensorsOf flag l = Ok ts.
Proof.
  intros Hwf. apply traverse_total, Forall_forall. intros m Hm.
  destruct (owners_spec flag l) as [Hp _]. rewrite Hp in Hm.
  apply list_elem_of_filter in Hm as [Hflag Hin].
  apply get_in_range, Hwf; assumption.
Qed.

(** C5: when inputTensors() (outputTensors()) hands back a list, it is the
    list of the tensor-table entries named by the memory entries that have the
    INPUT (OUTPUT) flag set, those entries and no others, in ascending order
    of the bind_id of the owning memory entries; and it does hand back a list
    whenever every such memory entry names a tensor inside the tensor
    table. *)
Theorem tensors_by_direction `{NvDlaLoadableH} (l : Loadable.t) :
  (forall ts, Loadable.inputTensors l = Ok ts ->
              tensors_selected ILoadable.MemoryListEntry.flags_input l ts) /\
  (forall ts, Loadable.outputTensors l = Ok ts ->
              tensors_selected ILoadable.MemoryListEntry.flags_output l ts) /\
  ((forall m, m ∈ Loadable.memory l ->
      Z.land (ILoadable.MemoryListEntry.flags m) ILoadable.MemoryListEntry.flags_input <> 0 ->
      0 <= ILoadable.MemoryListEntry.tensor_desc_id m < getNumTensorDescListEntries l) ->
   exists ts, Loadable.inputTensors l = Ok ts) /\
  ((forall m, m ∈ Loadable.memory l ->
      Z.land (ILoadable.MemoryListEntry.flags m) ILoadable.MemoryListEntry.flags_output <> 0 ->
      0 <= ILoadable.MemoryListEntry.tensor_desc_id m < getNumTensorDescListEntries l) ->
   exists ts, Loadable.outputTensors l = Ok ts).
Proof.
  assert (Hsel : forall flag ts, Loadable.tensorsOf flag l = Ok ts -> tensors_selected flag l ts).
  { intros flag ts (ms & Hp & Hs & Hf & Hin)%tensorsOf_spec.
    exists ms. repeat split; try assumption.
    eapply Forall2_impl; [exact Hf|].
    intros m t Hg%get_Ok_lookup. exact Hg. }
  repeat split.
  - intros ts. apply Hsel.
  - intros ts. apply Hsel.
  - apply tensorsOf_total.
  - apply tensorsOf_total.
Qed.

Lemma sample_loadable_tensor_ids (flag : Z) (m : ILoadable.MemoryListEntry.t) :
  m ∈ Loadable.memory sample_loadable ->
  Z.land (ILoadable.MemoryListEntry.flags m) flag <> 0 ->
  0 <= ILoadable.MemoryListEntry.tensor_desc_id m
    < @getNumTensorDescListEntries _ (@Loadable_methods sample_header) sample_loadable.
Proof.
  intros Hm _. cbn in Hm.
  repeat (apply elem_of_cons in Hm as [->|Hm]; [vm_compute; split; congruence|]).
  apply elem_of_nil in Hm. contradiction.
Defined.

Lemma tensors_by_direction_witness :
  (@Loadable.inputTensors sample_header sample_loadable
     = Ok [sample_tensor 1 2; sample_tensor 0 0] /\
   tensors_selected 4 sample_loadable [sample_tensor 1 2; sample_tensor 0 0]) /\
  (@Loadable.outputTensors sample_header sample_loadable = Ok [sample_tensor 2 3] /\
   tensors_selected 8 sample_loadable [sample_tensor 2 3]) /\
  (exists ts, @Loadable.inputTensors sample_header sample_loadable = Ok ts) /\
  (exists ts, @Loadable.outputTensors sample_header sample_loadable = Ok ts).
Proof.
  destruct (@tensors_by_direction sample_header sample_loadable) as (Hi & Ho & Ti & To).
  assert (Ei : @Loadable.inputTensors sample_header sample_loadable
               = Ok [sample_tensor 1 2; sample_tensor 0 0]) by (vm_compute; reflexivity).
  assert (Eo : @Loadable.outputTensors sample_header sample_loadable
               = Ok [sample_tensor 2 3]) by (vm_compute; reflexivity).
  exact (conj (conj Ei (Hi _ Ei)) (conj (conj Eo (Ho _ Eo))
           (conj (Ti (sample_loadable_tensor_ids _)) (To (sample_loadable_tensor_ids _))))).
Defined.

(* ===================================================================== *)
(** ** Tensor descriptors: decoding, encoding and their compositions *)
(* ===================================================================== *)

(** X1: [TensorDescListEntry::fromC] assigns every member from the wire field
    of the same meaning, so the decoded entry does not depend on what the
    object held before; two wire structs decode to the same entry only if
    they are equal, and every entry is the decoding of a wire struct. *)
Theorem TensorDescListEntry_fromC_faithful
    (self self' : ILoadable.TensorDescListEntry.t)
    (c c' : NvDlaLoadableTensorDescListEntry.t) :
  let e := ILoadable.TensorDescListEntry.fromC self c in
  (ILoadable.TensorDescListEntry.id e = NvDlaLoadableTensorDescListEntry.id c /\
   ILoadable.TensorDescListEntry.mem_id e = NvDlaLoadableTensorDescListEntry.mem_id c /\
   ILoadable.TensorDescListEntry.size e = NvDlaLoadableTensorDescListEntry.size c /\
   ILoadable.TensorDescListEntry.offset e = NvDlaLoadableTensorDescListEntry.offset c /\
   ILoadable.TensorDescListEntry.dims e = NvDlaLoadableTensorDescListEntry.dims c /\
   ILoadable.TensorDescListEntry.data_format e = NvDlaLoadableTensorDescListEntry.dataFormat c /\
   ILoadable.TensorDescListEntry.data_type e = NvDlaLoadableTensorDescListEntry.dataType c /\
   ILoadable.TensorDescListEntry.data_category e
     = NvDlaLoadableTensorDescListEntry.dataCategory c /\
   ILoadable.TensorDescListEntry.pixel_format e
     = NvDlaLoadableTensorDescListEntry.pixelFormat c /\
   ILoadable.TensorDescListEntry.pixel_mapping e
     = NvDlaLoadableTensorDescListEntry.pixelMapping c /\
   ILoadable.TensorDescListEntry.line_stride e = NvDlaLoadableTensorDescListEntry.lineStride c /\
   ILoadable.TensorDescListEntry.surf_stride e = NvDlaLoadableTensorDescListEntry.surfStride c /\
   ILoadable.TensorDescListEntry.plane_stride e
     = NvDlaLoadableTensorDescListEntry.planeStride c) /\
  ILoadable.TensorDescListEntry.fromC self' c = e /\
  (ILoadable.TensorDescListEntry.fromC self' c' = e <-> c' = c) /\
  (forall e0 : ILoadable.TensorDescListEntry.t,
      exists c0, ILoadable.TensorDescListEntry.fromC self c0 = e0).
Proof.
  destruct c as [i m s o [dn dc dh dw] f1 f2 f3 f4 f5 s1 s2 s3].
  cbn. repeat split.
  - destruct c' as [i' m' s' o' [dn' dc' dh' dw'] g1 g2 g3 g4 g5 t1 t2 t3].
    unfold ILoadable.TensorDescListEntry.fromC; cbn. intros E.
    injection E as -> -> -> -> -> -> -> -> -> -> -> -> -> -> -> ->. reflexivity.
  - intros ->. reflexivity.
  - intros [i0 m0 s0 o0 [n0 c0 h0 w0] a1 a2 a3 a4 a5 b1 b2 b3].
    exists (NvDlaLoadableTensorDescListEntry.mk i0 m0 s0 o0 (Dims4.mk n0 c0 h0 w0)
              a1 a2 a3 a4 a5 b1 b2 b3).
    reflexivity.
Qed.

(** X2: [TensorDescListEntry::toC] assigns every wire field, so the image
    does not depend on what the wire struct held before; every field but
    [mem_id] is copied from the member of the same meaning, and the wire
    [mem_id] always equals the wire [id].  Two entries have the same image
    exactly when they differ at most in their [mem_id]. *)
Theorem TensorDescListEntry_toC_image
    (e1 e2 : ILoadable.TensorDescListEntry.t)
    (c1 c2 : NvDlaLoadableTensorDescListEntry.t) :
  let w := ILoadable.TensorDescListEntry.toC e1 c1 in
  (NvDlaLoadableTensorDescListEntry.id w = ILoadable.TensorDescListEntry.id e1 /\
   NvDlaLoadableTensorDescListEntry.mem_id w = NvDlaLoadableTensorDescListEntry.id w /\
   NvDlaLoadableTensorDescListEntry.size w = ILoadable.TensorDescListEntry.size e1 /\
   NvDlaLoadableTensorDescListEntry.offset w = ILoadable.TensorDescListEntry.offset e1 /\
   NvDlaLoadableTensorDescListEntry.dims w = ILoadable.TensorDescListEntry.dims e1 /\
   NvDlaLoadableTensorDescListEntry.dataFormat w = ILoadable.TensorDescListEntry.data_format e1 /\
   NvDlaLoadableTensorDescListEntry.dataType w = ILoadable.TensorDescListEntry.data_type e1 /\
   NvDlaLoadableTensorDescListEntry.dataCategory w
     = ILoadable.TensorDescListEntry.data_category e1 /\
   NvDlaLoadableTensorDescListEntry.pixelFormat w
     = ILoadable.TensorDescListEntry.pixel_format e1 /\
   NvDlaLoadableTensorDescListEntry.pixelMapping w
     = ILoadable.TensorDescListEntry.pixel_mapping e1 /\
   NvDlaLoadableTensorDescListEntry.lineStride w = ILoadable.TensorDescListEntry.line_stride e1 /\
   NvDlaLoadableTensorDescListEntry.surfStride w = ILoadable.TensorDescListEntry.surf_stride e1 /\
   NvDlaLoadableTensorDescListEntry.planeStride w
     = ILoadable.TensorDescListEntry.plane_stride e1) /\
  ILoadable.TensorDescListEntry.toC e1 c2 = w /\
  (ILoadable.TensorDescListEntry.toC e2 c2 = w <->
   exists m, e2 = ILoadable.TensorDescListEntry.set_mem_id m e1).
Proof.
  destruct e1 as [i m s o [dn dc dh dw] f1 f2 f3 f4 f5 s1 s2 s3].
  cbn. repeat split.
  - destruct e2 as [i' m' s' o' [dn' dc' dh' dw'] g1 g2 g3 g4 g5 t1 t2 t3].
    unfold ILoadable.TensorDescListEntry.toC; cbn. intros E.
    injection E as -> _ -> -> -> -> -> -> -> -> -> -> -> -> -> ->.
    exists m'. reflexivity.
  - intros [m' ->]. reflexivity.
Qed.

(** X3: encoding an entry and decoding the image gives the entry with its
    [mem_id] replaced by its [id], whatever the wire struct and the receiving
    object held before.  The round trip is the identity exactly on the
    entries whose [mem_id] equals their [id]; its result is such an entry, so
    a second round trip changes nothing more. *)
Theorem TensorDescListEntry_roundtrip_law
    (e self self' : ILoadable.TensorDescListEntry.t)
    (c c' : NvDlaLoadableTensorDescListEntry.t) :
  let r := ILoadable.TensorDescListEntry.fromC self
             (ILoadable.TensorDescListEntry.toC e c) in
  r = ILoadable.TensorDescListEntry.set_mem_id (ILoadable.TensorDescListEntry.id e) e /\
  (r = e <-> ILoadable.TensorDescListEntry.mem_id e = ILoadable.TensorDescListEntry.id e) /\
  ILoadable.TensorDescListEntry.mem_id r = ILoadable.TensorDescListEntry.id r /\
  ILoadable.TensorDescListEntry.fromC self' (ILoadable.TensorDescListEntry.toC r c') = r.
Proof.
  intros r. subst r. rewrite !TensorDescListEntry_fromC_toC.
  destruct e as [i m s o d f1 f2 f3 f4 f5 s1 s2 s3]; cbn.
  repeat split.
  - intros E. injection E as ->. reflexivity.
  - intros ->. reflexivity.
Qed.

(** X4: decoding a wire struct and encoding the entry again gives the wire
    struct with its [mem_id] replaced by its [id], whatever the receiving
    object and the target wire struct held before; the wire struct comes back
    unchanged exactly when its [mem_id] equals its [id]. *)
Theorem TensorDescListEntry_wire_roundtrip
    (self : ILoadable.TensorDescListEntry.t)
    (c c' : NvDlaLoadableTensorDescListEntry.t) :
  let w := ILoadable.TensorDescListEntry.toC
             (ILoadable.TensorDescListEntry.fromC self c) c' in
  w = NvDlaLoadableTensorDescListEntry.set_mem_id (NvDlaLoadableTensorDescListEntry.id c) c /\
  (w = c <-> NvDlaLoadableTensorDescListEntry.mem_id c = NvDlaLoadableTensorDescListEntry.id c).
Proof.
  destruct c as [i m s o [dn dc dh dw] f1 f2 f3 f4 f5 s1 s2 s3]; cbn.
  unfold NvDlaLoadableTensorDescListEntry.set_mem_id; cbn.
  repeat split.
  - intros E. injection E as ->. reflexivity.
  - intros ->. reflexivity.
Qed.

(* ===================================================================== *)
(** ** Copy construction and the other objects of a storage *)
(* ===================================================================== *)

(** The blocks a copy takes are not blocks of the storage it is built in. *)
Lemma MemoryListEntryObject_copy_fresh (o : MemoryListEntryObject.t) (h : Storage.t) :
  Storage.string_blocks h !! MemoryListEntryObject.contents (MemoryListEntryObject.copy o h).1
    = None /\
  Storage.u64_blocks h !! MemoryListEntryObject.offsets (MemoryListEntryObject.copy o h).1
    = None.
Proof.
  cbn. split; apply not_elem_of_dom, is_fresh.
Qed.

(** An object that holds a value owns blocks of the storage. *)
Lemma MemoryListEntryObject_read_blocks (h : Storage.t) (o : MemoryListEntryObject.t)
    (v : ILoadable.MemoryListEntry.t) :
  MemoryListEntryObject.read h o = Some v ->
  is_Some (Storage.string_blocks h !! MemoryListEntryObject.contents o) /\
  is_Some (Storage.u64_blocks h !! MemoryListEntryObject.offsets o).
Proof.
  unfold MemoryListEntryObject.read.
  destruct (Storage.string_blocks h !! _), (Storage.u64_blocks h !! _);
    try discriminate; eauto.
Qed.

(** What an object holds depends on its own two blocks only. *)
Lemma MemoryListEntryObject_read_ext (h h' : Storage.t) (o : MemoryListEntryObject.t) :
  Storage.string_blocks h' !! MemoryListEntryObject.contents o
    = Storage.string_blocks h !! MemoryListEntryObject.contents o ->
  Storage.u64_blocks h' !! MemoryListEntryObject.offsets o
    = Storage.u64_blocks h !! MemoryListEntryObject.offsets o ->
  MemoryListEntryObject.read h' o = MemoryListEntryObject.read h o.
Proof.
  unfold MemoryListEntryObject.read. intros -> ->. reflexivity.
Qed.

(** Copy construction leaves what any object of the storage holds. *)
Lemma MemoryListEntryObject_copy_frame (h : Storage.t)
    (src other : MemoryListEntryObject.t) (w : ILoadable.MemoryListEntry.t) :
  MemoryListEntryObject.read h other = Some w ->
  MemoryListEntryObject.read (MemoryListEntryObject.copy src h).2 other = Some w /\
  MemoryListEntryObject.contents (MemoryListEntryObject.copy src h).1
    <> MemoryListEntryObject.contents other /\
  MemoryListEntryObject.offsets (MemoryListEntryObject.copy src h).1
    <> MemoryListEntryObject.offsets other.
Proof.
  intros Hr.
  destruct (MemoryListEntryObject_read_blocks _ _ _ Hr) as [[cs Hc] [os Ho]].
  destruct (MemoryListEntryObject_copy_fresh src h) as [Fc Fo].
  assert (Nc : MemoryListEntryObject.contents (MemoryListEntryObject.copy src h).1
               <> MemoryListEntryObject.contents other) by congruence.
  assert (No : MemoryListEntryObject.offsets (MemoryListEntryObject.copy src h).1
               <> MemoryListEntryObject.offsets other) by congruence.
  split; [|split; assumption].
  rewrite <- Hr. apply MemoryListEntryObject_read_ext; cbn in *.
  - apply lookup_insert_ne. exact Nc.
  - apply lookup_insert_ne. exact No.
Qed.

(** A write through the vectors of one object leaves what an object with
    other blocks holds. *)
Lemma MemoryListEntryObject_write_frame (h : Storage.t)
    (o other : MemoryListEntryObject.t) (cs : list string) (os : list Z) :
  MemoryListEntryObject.contents o <> MemoryListEntryObject.contents other ->
  MemoryListEntryObject.offsets o <> MemoryListEntryObject.offsets other ->
  MemoryListEntryObject.read (MemoryListEntryObject.write_vectors o cs os h) other
  = MemoryListEntryObject.read h other.
Proof.
  intros Nc No. apply MemoryListEntryObject_read_ext; cbn.
  - apply lookup_insert_ne. exact Nc.
  - apply lookup_insert_ne. exact No.
Qed.

Lemma MemoryListEntryObject_copy_holds (h : Storage.t) (src : MemoryListEntryObject.t)
    (v : ILoadable.MemoryListEntry.t) :
  MemoryListEntryObject.read h src = Some v ->
  MemoryListEntryObject.read (MemoryListEntryObject.copy src h).2
                             (MemoryListEntryObject.copy src h).1 = Some v.
Proof.
  intros Hr. pose proof (MemoryListEntryObject_copy_read h src v Hr) as W.
  destruct (MemoryListEntryObject.copy src h) as [d h']. apply W.
Qed.

(** X5: copy-constructing a MemoryListEntry from [src] leaves the value of
    every object of the storage as it was; a second copy of [src] shares no
    block with the first, both hold the value of [src], and a write through
    the vectors of either copy leaves the other copy, [src] and every other
    object as they were. *)
Theorem MemoryListEntryObject_copies_independent (h : Storage.t)
    (src other : MemoryListEntryObject.t) (v w : ILoadable.MemoryListEntry.t) :
  MemoryListEntryObject.read h src = Some v ->
  MemoryListEntryObject.read h other = Some w ->
  let '(d1, h1) := MemoryListEntryObject.copy src h in
  let '(d2, h2) := MemoryListEntryObject.copy src h1 in
  MemoryListEntryObject.read h1 other = Some w /\
  MemoryListEntryObject.read h2 other = Some w /\
  MemoryListEntryObject.read h1 src = Some v /\
  MemoryListEntryObject.read h2 src = Some v /\
  MemoryListEntryObject.read h1 d1 = Some v /\
  MemoryListEntryObject.read h2 d1 = Some v /\
  MemoryListEntryObject.read h2 d2 = Some v /\
  MemoryListEntryObject.contents d1 <> MemoryListEntryObject.contents d2 /\
  MemoryListEntryObject.offsets d1 <> MemoryListEntryObject.offsets d2 /\
  forall cs os,
    (MemoryListEntryObject.read (MemoryListEntryObject.write_vectors d1 cs os h2) d2 = Some v /\
     MemoryListEntryObject.read (MemoryListEntryObject.write_vectors d1 cs os h2) src = Some v /\
     MemoryListEntryObject.read (MemoryListEntryObject.write_vectors d1 cs os h2) other
       = Some w) /\
    (MemoryListEntryObject.read (MemoryListEntryObject.write_vectors d2 cs os h2) d1 = Some v /\
     MemoryListEntryObject.read (MemoryListEntryObject.write_vectors d2 cs os h2) src = Some v /\
     MemoryListEntryObject.read (MemoryListEntryObject.write_vectors d2 cs os h2) other
       = Some w).
Proof.
  intros Hs Ho.
  pose proof (MemoryListEntryObject_copy_holds h src v Hs) as Hd1.
  destruct (MemoryListEntryObject_copy_frame h src src v Hs) as (Hs1 & Ncs1 & Nos1).
  destruct (MemoryListEntryObject_copy_frame h src other w Ho) as (Ho1 & Nco1 & Noo1).
  destruct (MemoryListEntryObject.copy src h) as [d1 h1] eqn:E1. cbn [fst snd] in *.
  pose proof (MemoryListEntryObject_copy_holds h1 src v Hs1) as Hd2.
  destruct (MemoryListEntryObject_copy_frame h1 src src v Hs1) as (Hs2 & Ncs2 & Nos2).
  destruct (MemoryListEntryObject_copy_frame h1 src other w Ho1) as (Ho2 & Nco2 & Noo2).
  destruct (MemoryListEntryObject_copy_frame h1 src d1 v Hd1) as (Hd12 & Nc & No).
  destruct (MemoryListEntryObject.copy src h1) as [d2 h2] eqn:E2. cbn [fst snd] in *.
  repeat split; try assumption; try congruence;
    rewrite MemoryListEntryObject_write_frame; solve [assumption | congruence].
Qed.

Lemma MemoryListEntryObject_copies_independent_witness :
  MemoryListEntryObject.read two_entry_storage first_object
    = Some (ILoadable.MemoryListEntry.mk 0 8192 0 0 3 0 0 ["weights"; "bias"] [0; 4096]) /\
  MemoryListEntryObject.read two_entry_storage second_object
    = Some (ILoadable.MemoryListEntry.mk 1 256 0 0 1 0 0 ["scratch"] [64]) /\
  (let '(d1, h1) := MemoryListEntryObject.copy first_object two_entry_storage in
   let '(d2, h2) := MemoryListEntryObject.copy first_object h1 in
   MemoryListEntryObject.read h2 second_object
     = Some (ILoadable.MemoryListEntry.mk 1 256 0 0 1 0 0 ["scratch"] [64]) /\
   MemoryListEntryObject.read (MemoryListEntryObject.write_vectors d1 ["other"] [7] h2) d2
     = Some (ILoadable.MemoryListEntry.mk 0 8192 0 0 3 0 0 ["weights"; "bias"] [0; 4096])).
Proof.
  assert (R1 : MemoryListEntryObject.read two_entry_storage first_object
               = Some (ILoadable.MemoryListEntry.mk 0 8192 0 0 3 0 0
                         ["weights"; "bias"] [0; 4096])) by (vm_compute; reflexivity).
  assert (R2 : MemoryListEntryObject.read two_entry_storage second_object
               = Some (ILoadable.MemoryListEntry.mk 1 256 0 0 1 0 0 ["scratch"] [64]))
    by (vm_compute; reflexivity).
  split; [exact R1|]. split; [exact R2|].
  pose proof (MemoryListEntryObject_copies_independent two_entry_storage
                first_object second_object _ _ R1 R2) as W.
  destruct (MemoryListEntryObject.copy first_object two_entry_storage) as [d1 h1].
  destruct (MemoryListEntryObject.copy first_object h1) as [d2 h2].
  destruct W as (_ & W2 & _ & _ & _ & _ & _ & _ & _ & W10).
  exact (conj W2 (proj1 (proj1 (W10 ["other"] [7])))).
Defined.
